(** * The OTLP translator's metric consumer contract

  A shallow embedding of
  - [pkg/otlp/model/translator/consumer.go]: the [MetricDataType]
    enumeration with its text codec ([UnmarshalText], [MarshalText]) and
    the consumer interfaces;
  - [pkg/workloadmeta/collectors/internal/containerd/image_sbom_stub.go]:
    the SBOM stub of the containerd collector.

  Go values are modelled as follows.  An [int] is a [Z]; no function below
  does arithmetic on it, so no wrap-around appears.  A [[]byte] is a
  [list byte] (the nil slice is [[]]), a Go [string] is a [string], and the
  conversions [string(b)] and [[]byte(s)] are the Standard Library's
  [string_of_list_byte] and [list_byte_of_string].  An [error] is an
  [option]: [None] is Go's [nil].  A method with a pointer receiver takes
  the pointee and returns its new value next to its result. *)

From Stdlib Require Import ZArith List Bool Lia.
From Stdlib Require Import Strings.Byte Strings.Ascii Strings.String.
Import ListNotations.

Local Open Scope Z_scope.
Local Open Scope string_scope.

(** ** Go runtime pieces *)

Module Go.

(** [[]byte] and the two conversions between it and [string]. *)
Definition bytes : Type := list byte.

Definition string_of_bytes (b : bytes) : string := string_of_list_byte b.
Definition bytes_of_string (s : string) : bytes := list_byte_of_string s.

(** The operand of a formatting verb. *)
Inductive fmt_arg : Type :=
| ArgBytes (b : bytes)
| ArgInt (n : Z).

(** The value built by [fmt.Errorf format arg].  The message is kept
    unrendered: the format string and its operand. *)
Record errorString : Type := Errorf { format : string; operand : fmt_arg }.

(** Go's [error] interface value; [nil] is [None]. *)
Definition error : Type := option errorString.
Definition nil_error : error := None.

(** The range of a Go [int] of [w] bits; the language guarantees
    [w] is 32 or 64. *)
Definition int_range (w : Z) (n : Z) : Prop :=
  - 2 ^ (w - 1) <= n < 2 ^ (w - 1).

(** The [n]-th value of [iota] in a constant block. *)
Definition iota (n : nat) : Z := Z.of_nat n.

End Go.

(** ** [consumer.go]: the metric data type and its text codec *)

Module Translator.
Import Go.

(** [type MetricDataType int] *)
Definition MetricDataType : Type := Z.

(** The zero value of the type, as of every [int]. *)
Definition zero_value : MetricDataType := 0.

(** [const ( Gauge MetricDataType = iota; Count )] *)
Definition Gauge : MetricDataType := iota 0.
Definition Count : MetricDataType := iota 1.

(** [func (t *MetricDataType) UnmarshalText(text []byte) error]:
    [t] is the value behind the receiver before the call, the first
    component of the result is the value behind it after the call. *)
Definition UnmarshalText (t : MetricDataType) (text : bytes)
  : MetricDataType * error :=
  let s := string_of_bytes text in
  if String.eqb s "gauge" then (Gauge, nil_error)
  else if String.eqb s "count" then (Count, nil_error)
  else (t, Some (Errorf "invalid metric data type %q" (ArgBytes text))).

(** [func (t MetricDataType) MarshalText() ([]byte, error)] *)
Definition MarshalText (t : MetricDataType) : bytes * error :=
  if Z.eqb t Gauge then (bytes_of_string "gauge", nil_error)
  else if Z.eqb t Count then (bytes_of_string "count", nil_error)
  else ([], Some (Errorf "invalid metric data type %d" (ArgInt t))).

(** The error the two codec functions report: an [Errorf] whose message
    starts with [invalid metric data type]. *)
Definition InvalidMetricType (e : error) : bool :=
  match e with
  | Some err => String.prefix "invalid metric data type" (format err)
  | None => false
  end.

(** The two declared variants. *)
Definition declared (t : MetricDataType) : Prop := t = Gauge \/ t = Count.

(** The two canonical tokens. *)
Definition token (text : bytes) : Prop :=
  text = bytes_of_string "gauge" \/ text = bytes_of_string "count".

(** The three ways out of [UnmarshalText], one per arm of its switch. *)
Inductive unmarshal_arm (t : MetricDataType) (text : bytes)
  : MetricDataType * error -> Prop :=
| arm_gauge :
    text = bytes_of_string "gauge" ->
    unmarshal_arm t text (Gauge, None)
| arm_count :
    text = bytes_of_string "count" ->
    unmarshal_arm t text (Count, None)
| arm_default :
    ~ token text ->
    unmarshal_arm t text
      (t, Some (Errorf "invalid metric data type %q" (ArgBytes text))).

(** The three ways out of [MarshalText]. *)
Inductive marshal_arm (t : MetricDataType) : bytes * error -> Prop :=
| marm_gauge :
    t = Gauge -> marshal_arm t (bytes_of_string "gauge", None)
| marm_count :
    t = Count -> marshal_arm t (bytes_of_string "count", None)
| marm_invalid :
    ~ declared t ->
    marshal_arm t ([], Some (Errorf "invalid metric data type %d" (ArgInt t))).

(** *** The consumer interfaces

    Go decides whether a type implements an interface structurally: the
    method set of the type has to hold every method of the interface, with
    the same name and the same signature.  An interface that embeds others
    has the union of their methods. *)

(** The types that occur in the signatures of [consumer.go]. *)
Inductive go_type : Type :=
| TContext              (* context.Context *)
| TDimensionsPtr        (* *Dimensions *)
| TMetricDataType       (* MetricDataType *)
| TUint64               (* uint64 *)
| TFloat64              (* float64 *)
| TSketchPtr            (* *quantile.Sketch *)
| TClientStatsPayload   (* pb.ClientStatsPayload *)
| TString.              (* string *)

(** A method: its name, parameter types and result types. *)
Record method : Type :=
  Method { name : string; params : list go_type; results : list go_type }.

(** An interface type is the list of its methods, a method set likewise. *)
Definition interface : Type := list method.
Definition method_set : Type := list method.

(** Embedding interfaces in an interface type. *)
Definition embed (ifaces : list interface) : interface := List.concat ifaces.

Definition ConsumeTimeSeries : method :=
  Method "ConsumeTimeSeries"
         [TContext; TDimensionsPtr; TMetricDataType; TUint64; TFloat64] [].

Definition ConsumeSketch : method :=
  Method "ConsumeSketch" [TContext; TDimensionsPtr; TUint64; TSketchPtr] [].

Definition ConsumeAPMStats : method :=
  Method "ConsumeAPMStats" [TClientStatsPayload] [].

Definition ConsumeHost : method := Method "ConsumeHost" [TString] [].

Definition ConsumeTag : method := Method "ConsumeTag" [TString] [].

Definition TimeSeriesConsumer : interface := [ConsumeTimeSeries].
Definition SketchConsumer : interface := [ConsumeSketch].
Definition APMStatsConsumer : interface := [ConsumeAPMStats].
Definition HostConsumer : interface := [ConsumeHost].
Definition TagsConsumer : interface := [ConsumeTag].

(** [type Consumer interface { TimeSeriesConsumer; SketchConsumer;
    APMStatsConsumer }] *)
Definition Consumer : interface :=
  embed [TimeSeriesConsumer; SketchConsumer; APMStatsConsumer].

Definition go_type_eq_dec (a b : go_type) : {a = b} + {a <> b}.
Proof. decide equality. Defined.

Definition method_eq_dec (a b : method) : {a = b} + {a <> b}.
Proof.
  decide equality;
    solve [apply (list_eq_dec go_type_eq_dec) | apply string_dec].
Defined.

(** A type with method set [ms] implements the interface [i]. *)
Definition implements (ms : method_set) (i : interface) : Prop :=
  forall m, In m i -> In m ms.

(** The same, as the check the compiler runs. *)
Definition implementsb (ms : method_set) (i : interface) : bool :=
  forallb (fun m => if in_dec method_eq_dec m ms then true else false) i.

(** The three mandatory capabilities, and which of them a method set
    provides. *)
Definition mandatory : list interface :=
  [TimeSeriesConsumer; SketchConsumer; APMStatsConsumer].

Definition provided (ms : method_set) : list interface :=
  filter (implementsb ms) mandatory.

(** *** Successive decodes into one variable *)

(** A run of [UnmarshalText] calls on the same receiver, one per text, in
    order; errors are dropped and the value behind the receiver after the
    last call is returned. *)
Definition UnmarshalTexts (t : MetricDataType) (texts : list bytes)
  : MetricDataType :=
  fold_left (fun acc text => fst (UnmarshalText acc text)) texts t.

(** Whether [UnmarshalText] returns a nil error on [text]. *)
Definition accepts (text : bytes) : bool :=
  match snd (UnmarshalText zero_value text) with
  | None => true
  | Some _ => false
  end.

(** A lower-case ASCII letter, [a] (97) to [z] (122). *)
Definition is_lower (b : byte) : bool :=
  (97 <=? Byte.to_N b)%N && (Byte.to_N b <=? 122)%N.

End Translator.

(** ** [image_sbom_stub.go]: SBOM collection without trivy *)

Module Containerd.
Import Go.

(** [//go:build containerd && !trivy]: whether the file is part of the
    build, given which build tags are set. *)
Definition build_constraint (tag : string -> bool) : bool :=
  tag "containerd" && negb (tag "trivy").

Section Stub.

(** The [collector] struct is declared in another file of the package. *)
Variable collector : Type.

(** [func (c *collector) startSBOMCollection() error]: the collector behind
    the receiver after the call, and the error. *)
Definition startSBOMCollection (c : collector) : collector * error :=
  (c, nil_error).

End Stub.

(** *** The two build-constraint lines of the file *)

(** A [//go:build] expression. *)
Inductive build_expr : Type :=
| BTag (s : string)
| BNot (e : build_expr)
| BAnd (a b : build_expr)
| BOr (a b : build_expr).

Fixpoint eval_expr (tag : string -> bool) (e : build_expr) : bool :=
  match e with
  | BTag s => tag s
  | BNot e' => negb (eval_expr tag e')
  | BAnd a b => eval_expr tag a && eval_expr tag b
  | BOr a b => eval_expr tag a || eval_expr tag b
  end.

(** [//go:build containerd && !trivy] *)
Definition go_build_line : build_expr :=
  BAnd (BTag "containerd") (BNot (BTag "trivy")).

(** A term of a [// +build] line: a tag, negated when the flag is set. *)
Definition plus_term : Type := (bool * string)%type.

Definition eval_term (tag : string -> bool) (t : plus_term) : bool :=
  if fst t then negb (tag (snd t)) else tag (snd t).

(** A [// +build] line is a space-separated list of options, of which one
    has to hold; an option is a comma-separated list of terms, which all
    have to hold; several lines all have to hold. *)
Definition eval_plus_lines (tag : string -> bool)
  (lines : list (list (list plus_term))) : bool :=
  forallb (existsb (forallb (eval_term tag))) lines.

(** [// +build containerd,!trivy] *)
Definition plus_build_lines : list (list (list plus_term)) :=
  [[[(false, "containerd"); (true, "trivy")]]].

End Containerd.

(** * Properties *)

Import Go Translator Containerd.

(** ** Conversions between bytes and strings *)

Lemma string_of_bytes_eq (b : bytes) (s : string) :
  string_of_bytes b = s <-> b = bytes_of_string s.
Proof.
  unfold string_of_bytes, bytes_of_string. split; intros H.
  - rewrite <- H. symmetry. apply list_byte_of_string_of_list_byte.
  - rewrite H. apply string_of_list_byte_of_string.
Qed.

(** ** The shape of the two codec functions *)

Lemma UnmarshalText_arm (t : MetricDataType) (text : bytes) :
  unmarshal_arm t text (UnmarshalText t text).
Proof.
  unfold UnmarshalText; cbv zeta.
  destruct (String.eqb_spec (string_of_bytes text) "gauge") as [Hg | Hg].
  - apply arm_gauge. now apply string_of_bytes_eq.
  - destruct (String.eqb_spec (string_of_bytes text) "count") as [Hc | Hc].
    + apply arm_count. now apply string_of_bytes_eq.
    + apply arm_default. intros [H | H]; apply string_of_bytes_eq in H; tauto.
Qed.

Lemma MarshalText_arm (t : MetricDataType) : marshal_arm t (MarshalText t).
Proof.
  unfold MarshalText.
  destruct (Z.eqb_spec t Gauge) as [Hg | Hg].
  - now apply marm_gauge.
  - destruct (Z.eqb_spec t Count) as [Hc | Hc].
    + now apply marm_count.
    + apply marm_invalid. unfold declared. tauto.
Qed.

Lemma UnmarshalText_gauge (t : MetricDataType) :
  UnmarshalText t (bytes_of_string "gauge") = (Gauge, None).
Proof. reflexivity. Qed.

Lemma UnmarshalText_count (t : MetricDataType) :
  UnmarshalText t (bytes_of_string "count") = (Count, None).
Proof. reflexivity. Qed.

Lemma MarshalText_Gauge : MarshalText Gauge = (bytes_of_string "gauge", None).
Proof. reflexivity. Qed.

Lemma MarshalText_Count : MarshalText Count = (bytes_of_string "count", None).
Proof. reflexivity. Qed.

Lemma UnmarshalText_default (t : MetricDataType) (text : bytes) :
  ~ token text ->
  UnmarshalText t text =
  (t, Some (Errorf "invalid metric data type %q" (ArgBytes text))).
Proof.
  intros Hn. destruct (UnmarshalText_arm t text) as [H | H | H].
  - exfalso. apply Hn. now left.
  - exfalso. apply Hn. now right.
  - reflexivity.
Qed.

Lemma MarshalText_invalid (t : MetricDataType) :
  ~ declared t ->
  MarshalText t =
  ([], Some (Errorf "invalid metric data type %d" (ArgInt t))).
Proof.
  intros Hn. destruct (MarshalText_arm t) as [H | H | H].
  - exfalso. apply Hn. now left.
  - exfalso. apply Hn. now right.
  - reflexivity.
Qed.

Create HintDb codec.

#[local] Hint Resolve UnmarshalText_gauge UnmarshalText_count
  MarshalText_Gauge MarshalText_Count : codec.

(** ** The text codec of [MetricDataType] *)

(** C1: encoding and decoding are mutual inverses over the two valid
    variants.  Whatever the receiver held before, decoding the encoding of
    [Gauge] or [Count] gives the variant back, and encoding what the
    decoder made of the token [gauge] or [count] gives the token back;
    no step reports an error. *)
Theorem codec_mutual_inverses :
  (forall (t0 v : MetricDataType), declared v ->
     snd (MarshalText v) = None /\
     UnmarshalText t0 (fst (MarshalText v)) = (v, None)) /\
  (forall (t0 : MetricDataType) (s : bytes), token s ->
     snd (UnmarshalText t0 s) = None /\
     MarshalText (fst (UnmarshalText t0 s)) = (s, None)).
Proof.
  split.
  - intros t0 v [-> | ->].
    + rewrite MarshalText_Gauge. cbn [fst snd]. auto with codec.
    + rewrite MarshalText_Count. cbn [fst snd]. auto with codec.
  - intros t0 s [-> | ->].
    + rewrite UnmarshalText_gauge. cbn [fst snd]. auto with codec.
    + rewrite UnmarshalText_count. cbn [fst snd]. auto with codec.
Qed.

Lemma codec_mutual_inverses_witness :
  (declared Count /\
   snd (MarshalText Count) = None /\
   UnmarshalText 7 (fst (MarshalText Count)) = (Count, None)) /\
  (token (bytes_of_string "gauge") /\
   snd (UnmarshalText 1 (bytes_of_string "gauge")) = None /\
   MarshalText (fst (UnmarshalText 1 (bytes_of_string "gauge")))
   = (bytes_of_string "gauge", None)).
Proof.
  split.
  - split; [right; reflexivity |].
    apply (proj1 codec_mutual_inverses 7 Count). right; reflexivity.
  - split; [left; reflexivity |].
    apply (proj2 codec_mutual_inverses 1 (bytes_of_string "gauge")).
    left; reflexivity.
Defined.

(** C2: [MarshalText] maps [Gauge] to the text [gauge] and [Count] to the
    text [count] with a nil error, and [UnmarshalText] stores [Gauge] for
    the text [gauge] and [Count] for the text [count] with a nil error. *)
Theorem codec_table :
  MarshalText Gauge = (bytes_of_string "gauge", nil_error) /\
  MarshalText Count = (bytes_of_string "count", nil_error) /\
  (forall t0 : MetricDataType,
     UnmarshalText t0 (bytes_of_string "gauge") = (Gauge, nil_error) /\
     UnmarshalText t0 (bytes_of_string "count") = (Count, nil_error)).
Proof. repeat split. Qed.

(** C3: [UnmarshalText] reports an invalid-metric-type error for every text
    other than [gauge] and [count]; the comparison is on the exact bytes,
    so [GAUGE] is rejected. *)
Theorem UnmarshalText_rejects :
  (forall (t0 : MetricDataType) (text : bytes),
     ~ token text ->
     snd (UnmarshalText t0 text)
     = Some (Errorf "invalid metric data type %q" (ArgBytes text)) /\
     InvalidMetricType (snd (UnmarshalText t0 text)) = true) /\
  (forall t0 : MetricDataType,
     InvalidMetricType (snd (UnmarshalText t0 (bytes_of_string "GAUGE")))
     = true).
Proof.
  split.
  - intros t0 text Hn. rewrite (UnmarshalText_default t0 text Hn).
    split; reflexivity.
  - intros t0. reflexivity.
Qed.

Lemma UnmarshalText_rejects_witness :
  ~ token (bytes_of_string "Gauge ") /\
  snd (UnmarshalText Count (bytes_of_string "Gauge "))
  = Some (Errorf "invalid metric data type %q"
                 (ArgBytes (bytes_of_string "Gauge "))) /\
  InvalidMetricType (snd (UnmarshalText Count (bytes_of_string "Gauge ")))
  = true.
Proof.
  split.
  - intros [H | H]; discriminate H.
  - apply (proj1 UnmarshalText_rejects Count (bytes_of_string "Gauge ")).
    intros [H | H]; discriminate H.
Defined.

(** C4: [MarshalText] reports an invalid-metric-type error, and no text,
    for every ordinal other than [Gauge] and [Count]; 99 is one. *)
Theorem MarshalText_rejects :
  (forall t : MetricDataType,
     ~ declared t ->
     MarshalText t
     = ([], Some (Errorf "invalid metric data type %d" (ArgInt t))) /\
     InvalidMetricType (snd (MarshalText t)) = true) /\
  InvalidMetricType (snd (MarshalText 99)) = true.
Proof.
  split.
  - intros t Hn. rewrite (MarshalText_invalid t Hn). split; reflexivity.
  - reflexivity.
Qed.

Lemma MarshalText_rejects_witness :
  ~ declared (-1) /\
  MarshalText (-1)
  = ([], Some (Errorf "invalid metric data type %d" (ArgInt (-1)))) /\
  InvalidMetricType (snd (MarshalText (-1))) = true.
Proof.
  split.
  - intros [H | H]; discriminate H.
  - apply (proj1 MarshalText_rejects (-1)). intros [H | H]; discriminate H.
Defined.

(** C5: the tokens [UnmarshalText] accepts are exactly the texts
    [MarshalText] produces for a valid variant: decoding [s] succeeds if
    and only if [s] is the encoding of [Gauge] or of [Count]. *)
Theorem accepted_iff_produced (t0 : MetricDataType) (s : bytes) :
  snd (UnmarshalText t0 s) = None <->
  exists v : MetricDataType, declared v /\ MarshalText v = (s, None).
Proof.
  split.
  - destruct (UnmarshalText_arm t0 s) as [Hs | Hs | Hn]; intros Hok.
    + exists Gauge. split; [now left | now rewrite Hs].
    + exists Count. split; [now right | now rewrite Hs].
    + discriminate Hok.
  - intros [v [[-> | ->] Hv]].
    + rewrite MarshalText_Gauge in Hv. injection Hv as <-. reflexivity.
    + rewrite MarshalText_Count in Hv. injection Hv as <-. reflexivity.
Qed.

(** ** The values of [MetricDataType] *)

(** C6, as stated, fails: [MetricDataType] is an [int], and 99 is a value
    of it (in the range of an [int] of either size) that is neither
    [Gauge] nor [Count]. *)
Lemma undeclared_value_exists :
  int_range 32 99 /\ int_range 64 99 /\
  ~ declared (99 : MetricDataType) /\
  ~ (forall t : MetricDataType, declared t).
Proof.
  assert (H99 : ~ declared 99) by (intros [H | H]; discriminate H).
  repeat split; try (unfold int_range; lia); auto.
Qed.

(** C6, amended: [Gauge] and [Count] are the only valid values.
    [MarshalText] encodes a value without error exactly when it is one of
    the two, and a successful [UnmarshalText] stores one of the two. *)
Theorem valid_values_are_declared :
  (forall t : MetricDataType, snd (MarshalText t) = None <-> declared t) /\
  (forall (t0 : MetricDataType) (text : bytes),
     snd (UnmarshalText t0 text) = None ->
     declared (fst (UnmarshalText t0 text))).
Proof.
  split.
  - intros t. destruct (MarshalText_arm t) as [H | H | H]; cbn [snd].
    + split; [now left | reflexivity].
    + split; [now right | reflexivity].
    + split; [discriminate | tauto].
  - intros t0 text.
    destruct (UnmarshalText_arm t0 text) as [H | H | H]; cbn [fst snd].
    + now left.
    + now right.
    + discriminate.
Qed.

Lemma valid_values_are_declared_witness :
  (snd (MarshalText 1) = None <-> declared 1) /\
  (snd (UnmarshalText 99 (bytes_of_string "count")) = None /\
   declared (fst (UnmarshalText 99 (bytes_of_string "count")))).
Proof.
  split.
  - apply (proj1 valid_values_are_declared 1).
  - split; [reflexivity |].
    apply (proj2 valid_values_are_declared 99 (bytes_of_string "count")).
    reflexivity.
Defined.

(** C8: when [UnmarshalText] returns an error, the value behind the
    receiver is the one it held before the call. *)
Theorem UnmarshalText_error_keeps_receiver
  (t : MetricDataType) (text : bytes) (e : errorString) :
  snd (UnmarshalText t text) = Some e ->
  fst (UnmarshalText t text) = t.
Proof.
  destruct (UnmarshalText_arm t text) as [H | H | H]; cbn [fst snd].
  - discriminate.
  - discriminate.
  - reflexivity.
Qed.

Lemma UnmarshalText_error_keeps_receiver_witness :
  snd (UnmarshalText Count (bytes_of_string "Count"))
  = Some (Errorf "invalid metric data type %q"
                 (ArgBytes (bytes_of_string "Count"))) /\
  fst (UnmarshalText Count (bytes_of_string "Count")) = Count.
Proof.
  split; [reflexivity |].
  apply (UnmarshalText_error_keeps_receiver
           Count (bytes_of_string "Count")
           (Errorf "invalid metric data type %q"
                   (ArgBytes (bytes_of_string "Count")))).
  reflexivity.
Defined.

(** C9: the zero value of [MetricDataType] is [Gauge]; [Gauge] is the
    ordinal 0 and [Count] the ordinal 1; so a default-initialised value
    encodes to [gauge] with a nil error. *)
Theorem zero_value_is_Gauge :
  zero_value = Gauge /\ Gauge = 0 /\ Count = 1 /\
  MarshalText zero_value = (bytes_of_string "gauge", nil_error).
Proof. repeat split. Qed.

(** ** The [Consumer] interface *)

Lemma implementsb_spec (ms : method_set) (i : interface) :
  implementsb ms i = true <-> implements ms i.
Proof.
  unfold implementsb, implements. rewrite forallb_forall.
  split; intros H m Hm; specialize (H m Hm).
  - destruct (in_dec method_eq_dec m ms); [assumption | discriminate].
  - destruct (in_dec method_eq_dec m ms); [reflexivity | contradiction].
Qed.

Lemma implements_embed (ms : method_set) (ifaces : list interface) :
  implements ms (embed ifaces) <-> Forall (implements ms) ifaces.
Proof.
  unfold embed. induction ifaces as [| i rest IH]; cbn [List.concat].
  - split; [constructor | intros _ m []].
  - split.
    + intros H. constructor.
      * intros m Hm. apply H, in_or_app. now left.
      * apply IH. intros m Hm. apply H, in_or_app. now right.
    + intros H m Hm. inversion H as [| ? ? Hi Hrest]; subst.
      apply in_app_or in Hm as [Hm | Hm].
      * now apply Hi.
      * now apply (proj2 IH Hrest).
Qed.

Lemma implements_Consumer (ms : method_set) :
  implements ms Consumer <->
  implements ms TimeSeriesConsumer /\
  implements ms SketchConsumer /\
  implements ms APMStatsConsumer.
Proof.
  unfold Consumer. rewrite implements_embed. split.
  - intros H. inversion H as [| ? ? H1 H']; subst.
    inversion H' as [| ? ? H2 H'']; subst.
    inversion H'' as [| ? ? H3 _]; subst. auto.
  - intros (H1 & H2 & H3). repeat constructor; assumption.
Qed.

Lemma provided_all (ms : method_set) :
  provided ms = mandatory <->
  implements ms TimeSeriesConsumer /\
  implements ms SketchConsumer /\
  implements ms APMStatsConsumer.
Proof.
  rewrite <- !implementsb_spec. unfold provided, mandatory. cbn [filter].
  destruct (implementsb ms TimeSeriesConsumer),
           (implementsb ms SketchConsumer),
           (implementsb ms APMStatsConsumer);
    split; try (intros H; discriminate H);
    try (intros (H1 & H2 & H3); discriminate);
    auto.
Qed.

(** C7: a method set that satisfies [Consumer] satisfies each of
    [TimeSeriesConsumer], [SketchConsumer] and [APMStatsConsumer]; one that
    provides only a proper part of the three does not satisfy
    [Consumer]. *)
Theorem Consumer_is_all_three (ms : method_set) :
  (implements ms Consumer ->
   implements ms TimeSeriesConsumer /\
   implements ms SketchConsumer /\
   implements ms APMStatsConsumer) /\
  (provided ms <> mandatory -> ~ implements ms Consumer).
Proof.
  split.
  - apply implements_Consumer.
  - intros Hp Hc. apply Hp, provided_all, implements_Consumer, Hc.
Qed.

Lemma Consumer_is_all_three_witness :
  (implements [ConsumeAPMStats; ConsumeHost; ConsumeSketch; ConsumeTimeSeries]
              Consumer /\
   implements [ConsumeAPMStats; ConsumeHost; ConsumeSketch; ConsumeTimeSeries]
              SketchConsumer) /\
  (provided [ConsumeTimeSeries; ConsumeSketch; ConsumeTag] <> mandatory /\
   ~ implements [ConsumeTimeSeries; ConsumeSketch; ConsumeTag] Consumer).
Proof.
  assert (Hfull : implements
            [ConsumeAPMStats; ConsumeHost; ConsumeSketch; ConsumeTimeSeries]
            Consumer) by (apply implementsb_spec; reflexivity).
  split.
  - split; [exact Hfull |].
    exact (proj1 (proj2 (proj1 (Consumer_is_all_three _) Hfull))).
  - split; [discriminate |].
    apply (proj2 (Consumer_is_all_three
                    [ConsumeTimeSeries; ConsumeSketch; ConsumeTag])).
    discriminate.
Defined.

(** ** The SBOM stub of the containerd collector *)

Lemma build_constraint_spec (tag : string -> bool) :
  build_constraint tag = true <->
  tag "containerd" = true /\ tag "trivy" = false.
Proof.
  unfold build_constraint.
  rewrite andb_true_iff, negb_true_iff. reflexivity.
Qed.

(** C10: in a build with the tag [containerd] and without the tag [trivy],
    [startSBOMCollection] returns a nil error and leaves the collector as
    it was, whatever the collector. *)
Theorem startSBOMCollection_nil
  (tag : string -> bool) (collector : Type) (c : collector) :
  build_constraint tag = true ->
  snd (startSBOMCollection collector c) = nil_error /\
  fst (startSBOMCollection collector c) = c.
Proof. intros _. split; reflexivity. Qed.

Lemma startSBOMCollection_nil_witness :
  build_constraint (String.eqb "containerd") = true /\
  snd (startSBOMCollection (list string) ["image-a"; "image-b"]) = nil_error /\
  fst (startSBOMCollection (list string) ["image-a"; "image-b"])
  = ["image-a"; "image-b"].
Proof.
  split; [reflexivity |].
  apply (startSBOMCollection_nil (String.eqb "containerd")
           (list string) ["image-a"; "image-b"]).
  reflexivity.
Defined.

(** * Further properties of the codec *)

Lemma accepts_token (text : bytes) : accepts text = true <-> token text.
Proof.
  unfold accepts.
  destruct (UnmarshalText_arm zero_value text) as [H | H | H]; cbn [snd].
  - split; [now left | reflexivity].
  - split; [now right | reflexivity].
  - split; [discriminate | tauto].
Qed.

Lemma accepts_false (text : bytes) : accepts text = false <-> ~ token text.
Proof.
  rewrite <- accepts_token. destruct (accepts text); split;
    congruence || (intros H; exfalso; now apply H).
Qed.

Lemma UnmarshalText_token_any (t t' : MetricDataType) (text : bytes) :
  token text -> UnmarshalText t text = UnmarshalText t' text.
Proof.
  intros [-> | ->]; now rewrite ?UnmarshalText_gauge, ?UnmarshalText_count.
Qed.

Lemma token_shape (text : bytes) :
  token text -> List.length text = 5%nat /\ forallb is_lower text = true.
Proof. intros [-> | ->]; split; reflexivity. Qed.

Lemma UnmarshalTexts_snoc (t : MetricDataType) (texts : list bytes)
  (text : bytes) :
  UnmarshalTexts t (texts ++ [text])%list
  = fst (UnmarshalText (UnmarshalTexts t texts) text).
Proof. unfold UnmarshalTexts. now rewrite fold_left_app. Qed.

Lemma UnmarshalText_keeps_declared (t : MetricDataType) (text : bytes) :
  declared t -> declared (fst (UnmarshalText t text)).
Proof.
  intros Ht. destruct (UnmarshalText_arm t text) as [H | H | H]; cbn [fst].
  - now left.
  - now right.
  - exact Ht.
Qed.

(** X1: the codec is one-to-one in both directions.  Two ordinals that
    [MarshalText] encodes to the same text without error are equal, and two
    texts that [UnmarshalText] decodes to the same value without error are
    equal, whatever the receivers held. *)
Theorem codec_one_to_one :
  (forall (a b : MetricDataType) (s : bytes),
     MarshalText a = (s, None) -> MarshalText b = (s, None) -> a = b) /\
  (forall (t0 t1 v : MetricDataType) (x y : bytes),
     UnmarshalText t0 x = (v, None) -> UnmarshalText t1 y = (v, None) ->
     x = y).
Proof.
  split.
  - intros a b s.
    destruct (MarshalText_arm a) as [Ha | Ha | Ha],
             (MarshalText_arm b) as [Hb | Hb | Hb];
      intros E1 E2; try discriminate; try congruence;
      rewrite <- E2 in E1; discriminate E1.
  - intros t0 t1 v x y.
    destruct (UnmarshalText_arm t0 x) as [Hx | Hx | Hx],
             (UnmarshalText_arm t1 y) as [Hy | Hy | Hy];
      intros E1 E2; try discriminate; try congruence;
      rewrite <- E2 in E1; discriminate E1.
Qed.

Lemma codec_one_to_one_witness :
  (MarshalText (0 + 1) = (bytes_of_string "count", None) /\
   MarshalText Count = (bytes_of_string "count", None) /\
   0 + 1 = Count) /\
  (UnmarshalText 5 (bytes_of_string "gauge") = (Gauge, None) /\
   UnmarshalText 1 (bytes_of_string "gau" ++ bytes_of_string "ge")%list
   = (Gauge, None) /\
   bytes_of_string "gauge"
   = (bytes_of_string "gau" ++ bytes_of_string "ge")%list).
Proof.
  split.
  - split; [reflexivity | split; [reflexivity |]].
    apply (proj1 codec_one_to_one (0 + 1) Count (bytes_of_string "count"));
      reflexivity.
  - split; [reflexivity | split; [reflexivity |]].
    apply (proj2 codec_one_to_one 5 1 Gauge
             (bytes_of_string "gauge")
             (bytes_of_string "gau" ++ bytes_of_string "ge")%list);
      reflexivity.
Defined.

(** X2: what [UnmarshalText] makes of a text does not depend on what the
    receiver held: the error is the same for any two prior values, and on
    success so is the stored value. *)
Theorem UnmarshalText_receiver_independent
  (t0 t1 : MetricDataType) (text : bytes) :
  snd (UnmarshalText t0 text) = snd (UnmarshalText t1 text) /\
  (snd (UnmarshalText t0 text) = None ->
   UnmarshalText t0 text = UnmarshalText t1 text).
Proof.
  destruct (UnmarshalText_arm t0 text) as [H | H | H]; cbn [snd].
  - rewrite H, UnmarshalText_gauge. auto.
  - rewrite H, UnmarshalText_count. auto.
  - rewrite (UnmarshalText_default t1 text H). cbn [snd].
    split; [reflexivity | discriminate].
Qed.

Lemma UnmarshalText_receiver_independent_witness :
  snd (UnmarshalText 0 (bytes_of_string "count")) = None /\
  UnmarshalText 0 (bytes_of_string "count")
  = UnmarshalText 42 (bytes_of_string "count").
Proof.
  split; [reflexivity |].
  apply (proj2 (UnmarshalText_receiver_independent
                  0 42 (bytes_of_string "count"))).
  reflexivity.
Defined.

(** X3: after a run of decodes into one variable, the variable holds what
    the last accepted text decodes to, or its initial value when no text of
    the run was accepted: a rejected text never disturbs an earlier
    result, and an accepted one overrides all earlier ones. *)
Theorem UnmarshalTexts_last_accepted
  (t : MetricDataType) (texts : list bytes) :
  UnmarshalTexts t texts =
  match find accepts (rev texts) with
  | Some text => fst (UnmarshalText t text)
  | None => t
  end.
Proof.
  induction texts as [| text texts IH] using rev_ind.
  - reflexivity.
  - rewrite UnmarshalTexts_snoc, rev_unit. cbn [find].
    destruct (accepts text) eqn:Ha.
    + apply accepts_token in Ha.
      now rewrite (UnmarshalText_token_any _ t text Ha).
    + apply accepts_false in Ha.
      rewrite (UnmarshalText_default _ text Ha). cbn [fst]. exact IH.
Qed.

(** X4: being [Gauge] or [Count] is an invariant of the variable under
    decoding.  If it holds before a run of decodes (as it does for the
    zero value), it holds after it, whether the texts were accepted or
    not, and the variable then encodes without error. *)
Theorem UnmarshalTexts_keeps_declared
  (t : MetricDataType) (texts : list bytes) :
  declared t ->
  declared (UnmarshalTexts t texts) /\
  snd (MarshalText (UnmarshalTexts t texts)) = None.
Proof.
  intros Ht.
  assert (Hd : declared (UnmarshalTexts t texts)).
  { induction texts as [| text texts IH] using rev_ind.
    - exact Ht.
    - rewrite UnmarshalTexts_snoc. now apply UnmarshalText_keeps_declared. }
  split; [exact Hd |].
  destruct Hd as [-> | ->]; reflexivity.
Qed.

Lemma UnmarshalTexts_keeps_declared_witness :
  declared zero_value /\
  declared (UnmarshalTexts zero_value
              [bytes_of_string "count"; bytes_of_string "COUNT"; []]) /\
  snd (MarshalText
         (UnmarshalTexts zero_value
            [bytes_of_string "count"; bytes_of_string "COUNT"; []])) = None.
Proof.
  split; [left; reflexivity |].
  apply (UnmarshalTexts_keeps_declared zero_value
           [bytes_of_string "count"; bytes_of_string "COUNT"; []]).
  left; reflexivity.
Defined.

(** X5: [UnmarshalText] rejects every text that is not exactly five
    lower-case ASCII letters (the empty text, a token in upper case, a
    token with padding), reports the text in the error and leaves the
    receiver as it was. *)
Theorem UnmarshalText_rejects_by_shape
  (t0 : MetricDataType) (text : bytes) :
  List.length text <> 5%nat \/ forallb is_lower text = false ->
  UnmarshalText t0 text
  = (t0, Some (Errorf "invalid metric data type %q" (ArgBytes text))).
Proof.
  intros Hshape. apply UnmarshalText_default. intros Htok.
  destruct (token_shape text Htok) as [Hlen Hlow].
  destruct Hshape as [H | H]; congruence.
Qed.

Lemma UnmarshalText_rejects_by_shape_witness :
  (List.length (bytes_of_string "count ") <> 5%nat \/
   forallb is_lower (bytes_of_string "count ") = false) /\
  UnmarshalText Gauge (bytes_of_string "count ")
  = (Gauge, Some (Errorf "invalid metric data type %q"
                         (ArgBytes (bytes_of_string "count ")))).
Proof.
  split.
  - left. discriminate.
  - apply (UnmarshalText_rejects_by_shape Gauge (bytes_of_string "count ")).
    left. discriminate.
Defined.

(** X6: [MarshalText] returns either a text or an error, never both and
    never neither: the error is nil exactly when the text is not empty. *)
Theorem MarshalText_text_xor_error (t : MetricDataType) :
  (snd (MarshalText t) = None <-> fst (MarshalText t) <> []) /\
  (snd (MarshalText t) <> None <-> fst (MarshalText t) = []).
Proof.
  destruct (MarshalText_arm t) as [H | H | H]; cbn [fst snd];
    repeat split; intros; try discriminate; try congruence.
Qed.

(** X7: a round trip does not hide an encoding error.  Decoding what
    [MarshalText] returned succeeds exactly when [MarshalText] succeeded;
    after a failed encoding the decode fails too and the receiver keeps its
    value. *)
Theorem roundtrip_keeps_error (t0 t : MetricDataType) :
  (snd (UnmarshalText t0 (fst (MarshalText t))) = None <->
   snd (MarshalText t) = None) /\
  (snd (MarshalText t) <> None ->
   fst (UnmarshalText t0 (fst (MarshalText t))) = t0).
Proof.
  destruct (MarshalText_arm t) as [H | H | H]; cbn [fst snd].
  - rewrite UnmarshalText_gauge. cbn [fst snd]. split; [tauto | congruence].
  - rewrite UnmarshalText_count. cbn [fst snd]. split; [tauto | congruence].
  - split; [split; discriminate | reflexivity].
Qed.

Lemma roundtrip_keeps_error_witness :
  snd (MarshalText 2) <> None /\
  fst (UnmarshalText Count (fst (MarshalText 2))) = Count.
Proof.
  split; [discriminate |].
  apply (proj2 (roundtrip_keeps_error Count 2)). discriminate.
Defined.

(** * Further properties of the consumer interfaces *)





(** X9: each of the three methods is needed.  A method set from which one
    of the methods of [Consumer] has been removed does not satisfy
    [Consumer], whatever else it holds. *)
Theorem Consumer_needs_each_method (ms : method_set) (m : method) :
  In m Consumer -> ~ implements (remove method_eq_dec m ms) Consumer.
Proof.
  intros Hm H. exact (remove_In method_eq_dec ms m (H m Hm)).
Qed.

Lemma Consumer_needs_each_method_witness :
  In ConsumeSketch Consumer /\
  ~ implements
      (remove method_eq_dec ConsumeSketch
         [ConsumeTimeSeries; ConsumeSketch; ConsumeAPMStats; ConsumeTag])
      Consumer.
Proof.
  split.
  - right; left; reflexivity.
  - apply (Consumer_needs_each_method
             [ConsumeTimeSeries; ConsumeSketch; ConsumeAPMStats; ConsumeTag]
             ConsumeSketch).
    right; left; reflexivity.
Defined.

(** X10: the two optional capabilities are independent of [Consumer] and of
    each other: for each of the four answers a probe for [HostConsumer]
    and a probe for [TagsConsumer] can give, some type that satisfies
    [Consumer] gives that answer; the type with the three mandatory
    methods alone answers no to both. *)
Theorem optional_capabilities_independent :
  (forall host tags : bool,
     exists ms : method_set,
       implements ms Consumer /\
       implementsb ms HostConsumer = host /\
       implementsb ms TagsConsumer = tags) /\
  implementsb Consumer Consumer = true /\
  implementsb Consumer HostConsumer = false /\
  implementsb Consumer TagsConsumer = false.
Proof.
  split; [| repeat split].
  intros host tags.
  exists ((if host then HostConsumer else [])
          ++ (if tags then TagsConsumer else []) ++ Consumer)%list.
  destruct host, tags;
    (split; [apply implementsb_spec; reflexivity | split; reflexivity]).
Qed.

(** * The build constraint of the SBOM stub *)

(** X11: the [//go:build] line and the older [// +build] line of the file
    select the same builds, namely those with the tag [containerd] and
    without the tag [trivy]; so the stub is never part of a build that has
    [trivy]. *)
Theorem build_lines_agree (tag : string -> bool) :
  eval_plus_lines tag plus_build_lines = eval_expr tag go_build_line /\
  eval_expr tag go_build_line = build_constraint tag /\
  (eval_expr tag go_build_line = true <->
   tag "containerd" = true /\ tag "trivy" = false).
Proof.
  unfold eval_plus_lines, plus_build_lines, go_build_line, build_constraint.
  cbn [forallb existsb eval_term eval_expr fst snd].
  destruct (tag "containerd"), (tag "trivy"); cbn;
    intuition congruence.
Qed.
